(** * Eurocode 2 (2023) reinforcement material

    A shallow embedding of
    [structuralcodes/materials/reinforcement/_reinforcementEC2_2023.py]:
    the class [ReinforcementEC2_2023], its constructor, its design-value
    methods and the keyword-argument methods queried by the
    constitutive-law factory.

    Python floats are IEEE 754 binary64 numbers and are modelled by Rocq's
    primitive floats; Python exceptions are modelled by an error monad;
    Python dictionaries with string keys by [gmap string float]. *)

From Stdlib Require Import ZArith Lia Floats Ascii String.
From stdpp Require Import gmap strings pretty.

Set Warnings "-inexact-float".

Local Open Scope Z_scope.

(** ** Python exceptions and the error monad *)

Inductive exn : Type :=
  | ValueError (msg : string)
  | ZeroDivisionError
  | OverflowError (msg : string).

Definition result (A : Type) : Type := exn + A.

Definition OK {A} (a : A) : result A := inr a.
Definition Raise {A} (e : exn) : result A := inl e.

#[global] Instance result_ret : MRet result := fun A a => OK a.
#[global] Instance result_bind : MBind result :=
  fun A B f r => match r with inl e => inl e | inr a => f a end.

(** Runs the binds whose argument is a known result. *)
Ltac run_result :=
  cbv beta iota delta [mbind result_bind mret result_ret OK Raise].

(** ** Python float operations *)

(** A signed zero of the IEEE specification. *)
Definition SFis_zero (x : spec_float) : bool :=
  match x with S754_zero _ => true | _ => false end.

(** The NaN of the IEEE specification. *)
Definition SFis_nan (x : spec_float) : bool :=
  match x with S754_nan => true | _ => false end.

(** A zero or a finite non-zero number. *)
Definition SFis_finite (x : spec_float) : bool :=
  match x with S754_zero _ | S754_finite _ _ _ => true | _ => false end.

Module PyFloat.

(** [bool(x)] for a float: [x != 0.0]; both zeros are falsy, NaN is
    truthy. *)
Definition truthy (x : float) : bool := negb (x =? 0)%float.

(** [a / b]: raises [ZeroDivisionError] when [b == 0.0], otherwise the
    IEEE quotient. *)
Definition truediv (a b : float) : result float :=
  if (b =? 0)%float then Raise ZeroDivisionError else OK (a / b)%float.

(** The integer nearest to [(-1)^s * m * 2^e], ties to even. *)
Definition round_half_even (s : bool) (m : positive) (e : Z) : Z :=
  let z :=
    match e with
    | Zneg p =>
        let d := 2 ^ Zpos p in
        let q := Zpos m / d in
        let r := Zpos m mod d in
        match 2 * r ?= d with
        | Lt => q
        | Gt => q + 1
        | Eq => if Z.even q then q else q + 1
        end
    | _ => Zpos m * 2 ^ e
    end in
  if s then - z else z.

(** [round(x)] with one argument: a Python int, or an exception for NaN
    and the infinities. *)
Definition round (x : float) : result Z :=
  match Prim2SF x with
  | S754_nan => Raise (ValueError "cannot convert float NaN to integer")
  | S754_infinity _ =>
      Raise (OverflowError "cannot convert float infinity to integer")
  | S754_zero _ => OK 0
  | S754_finite s m e => OK (round_half_even s m e)
  end.

(** [0 < x < inf]. *)
Definition positive_finite (x : float) : bool :=
  (0 <? x)%float && (x <? infinity)%float.

(** Neither NaN nor an infinity. *)
Definition finite (x : float) : bool :=
  match Prim2SF x with
  | S754_nan | S754_infinity _ => false
  | _ => true
  end.

End PyFloat.

(** [f'{n:d}'] for a Python int. *)
Definition format_d (n : Z) : string := pretty n.

(** The characters '0' to '9'. *)
Definition is_digit (c : ascii) : bool :=
  (48 <=? nat_of_ascii c)%nat && (nat_of_ascii c <=? 57)%nat.

Fixpoint all_digits (s : string) : bool :=
  match s with
  | EmptyString => true
  | String c s' => is_digit c && all_digits s'
  end.

(** ** Constitutive laws *)

(** What the material sees of a constitutive-law object: its class name,
    the [__materials__] marker and the keyword arguments it was built
    from. *)
Record ConstitutiveLaw : Type := {
  law_name : string;
  __materials__ : list string;
  law_kwargs : gmap string float
}.

(** The three names the constructor's annotation lists. *)
Inductive LawKind : Type := Elastic | ElasticPerfectlyPlastic | ElasticPlastic.

Definition kind_of_name (s : string) : option LawKind :=
  if String.eqb s "elastic" then Some Elastic
  else if String.eqb s "elasticperfectlyplastic" then Some ElasticPerfectlyPlastic
  else if String.eqb s "elasticplastic" then Some ElasticPlastic
  else None.

(** The [constitutive_law] argument: a name or an instance.  The
    annotation also admits [None]; that value is not modelled. *)
Inductive law_arg : Type :=
  | LawName (s : string)
  | LawInstance (law : ConstitutiveLaw).

(** ** The material object *)

Record ReinforcementEC2_2023 : Type := {
  _fyk : float;
  _Es : float;
  _ftk : float;
  _epsuk : float;
  _gamma_s : option float;
  _name : string;
  _density : float;
  _constitutive_law : option ConstitutiveLaw
}.

(** Arguments of [__init__]. *)
Record init_args : Type := {
  a_fyk : float;
  a_Es : float;
  a_ftk : float;
  a_epsuk : float;
  a_gamma_s : option float;
  a_name : option string;
  a_density : float;
  a_constitutive_law : law_arg
}.

(** The defaults of the signature: [gamma_s=None], [name=None],
    [density=7850.0], [constitutive_law='elasticplastic']. *)
Definition default_args (fyk Es ftk epsuk : float) : init_args :=
  {| a_fyk := fyk; a_Es := Es; a_ftk := ftk; a_epsuk := epsuk;
     a_gamma_s := None; a_name := None; a_density := 7850%float;
     a_constitutive_law := LawName "elasticplastic" |}.

(** Modelled from the spec: the base class [Reinforcement] is not part of
    the sources at hand.  Its constructor stores the characteristic
    properties, the optional partial factor, the name and the density
    unchanged; no constitutive law is bound yet. *)
Definition Reinforcement_init
    (fyk Es : float) (name : string) (density ftk epsuk : float)
    (gamma_s : option float) : ReinforcementEC2_2023 :=
  {| _fyk := fyk; _Es := Es; _ftk := ftk; _epsuk := epsuk;
     _gamma_s := gamma_s; _name := name; _density := density;
     _constitutive_law := None |}.

(** Modelled from the spec: the read accessors of the base class return
    the stored values. *)
Definition fyk (self : ReinforcementEC2_2023) : float := _fyk self.
Definition Es (self : ReinforcementEC2_2023) : float := _Es self.
Definition ftk (self : ReinforcementEC2_2023) : float := _ftk self.
Definition epsuk (self : ReinforcementEC2_2023) : float := _epsuk self.
Definition name (self : ReinforcementEC2_2023) : string := _name self.

Definition set_constitutive_law
    (self : ReinforcementEC2_2023) (law : ConstitutiveLaw)
    : ReinforcementEC2_2023 :=
  {| _fyk := _fyk self; _Es := _Es self; _ftk := _ftk self;
     _epsuk := _epsuk self; _gamma_s := _gamma_s self;
     _name := _name self; _density := _density self;
     _constitutive_law := Some law |}.

(** [self._gamma_s or 1.15]: [None] and a zero are falsy. *)
Definition gamma_s (self : ReinforcementEC2_2023) : float :=
  match _gamma_s self with
  | Some g => if PyFloat.truthy g then g else 1.15%float
  | None => 1.15%float
  end.

(** ** Collaborators

    The code rules [ec2_2023.fyd] and [ec2_2023.eps_ud] and the
    constructors of the constitutive-law classes live outside this class;
    the material is parametric in them. *)
Class Collaborators : Type := {
  ec2_2023_fyd : float -> float -> result float;
  ec2_2023_eps_ud : float -> float -> result float;
  law_of_kind : LawKind -> gmap string float -> result ConstitutiveLaw
}.

Section EC2_2023.

Context `{Collaborators}.

Definition fyd (self : ReinforcementEC2_2023) : result float :=
  ec2_2023_fyd (fyk self) (gamma_s self).

Definition ftd (self : ReinforcementEC2_2023) : result float :=
  ec2_2023_fyd (ftk self) (gamma_s self).

Definition epsud (self : ReinforcementEC2_2023) : result float :=
  ec2_2023_eps_ud (epsuk self) (gamma_s self).

(** Modelled from the spec: the base class property [epsyd], the design
    yield strain [fyd / Es]. *)
Definition epsyd (self : ReinforcementEC2_2023) : result float :=
  fy ← fyd self; PyFloat.truediv fy (Es self).

Definition __elastic__ (self : ReinforcementEC2_2023)
    : result (gmap string float) :=
  mret {[ "E" := Es self ]}.

Definition __elasticperfectlyplastic__ (self : ReinforcementEC2_2023)
    : result (gmap string float) :=
  fy ← fyd self;
  eps_su ← epsud self;
  mret (<["E" := Es self]> (<["fy" := fy]> {[ "eps_su" := eps_su ]})).

Definition __elasticplastic__ (self : ReinforcementEC2_2023)
    : result (gmap string float) :=
  ft ← ftd self;
  fy ← fyd self;
  eu ← epsud self;
  ey ← epsyd self;
  Eh ← PyFloat.truediv (ft - fy)%float (eu - ey)%float;
  fy' ← fyd self;
  eps_su ← epsud self;
  mret (<["E" := Es self]> (<["fy" := fy']>
         (<["Eh" := Eh]> {[ "eps_su" := eps_su ]}))).

(** Modelled from the spec: the factory [create_constitutive_law] is not
    part of the sources at hand.  For one of the three known names it
    asks the material for the keyword arguments of that kind and builds
    the law from them; any other name is an invalid configuration. *)
Definition create_constitutive_law
    (constitutive_law_name : string) (material : ReinforcementEC2_2023)
    : result ConstitutiveLaw :=
  match kind_of_name constitutive_law_name with
  | Some k =>
      kwargs ← match k with
               | Elastic => __elastic__ material
               | ElasticPerfectlyPlastic => __elasticperfectlyplastic__ material
               | ElasticPlastic => __elasticplastic__ material
               end;
      law_of_kind k kwargs
  | None =>
      Raise (ValueError ("Unknown constitutive law: " +:+ constitutive_law_name))
  end.

(** Lines 60-61: the name given, or one made from the rounded [fyk]. *)
Definition init_name (a : init_args) : result string :=
  match a_name a with
  | Some s => mret s
  | None => n ← PyFloat.round (a_fyk a); mret ("Reinforcement" +:+ format_d n)
  end.

(** Lines 62-70: the object after [super().__init__]. *)
Definition init_base (a : init_args) (nm : string) : ReinforcementEC2_2023 :=
  Reinforcement_init (a_fyk a) (a_Es a) nm (a_density a) (a_ftk a)
    (a_epsuk a) (a_gamma_s a).

(** Lines 71-77: an instance is adopted, a name goes to the factory
    together with the object built so far. *)
Definition init_law (a : init_args) (self : ReinforcementEC2_2023)
    : result ConstitutiveLaw :=
  match a_constitutive_law a with
  | LawInstance law => mret law
  | LawName s => create_constitutive_law s self
  end.

Definition not_valid_msg : string :=
  "The provided constitutive law is not valid for reinforcement.".

(** [ReinforcementEC2_2023.__init__]: the constructed object, or the
    exception that leaves the constructor. *)
Definition init (a : init_args) : result ReinforcementEC2_2023 :=
  nm ← init_name a;
  let self := init_base a nm in
  law ← init_law a self;
  let self := set_constitutive_law self law in
  if bool_decide ("steel" ∈ __materials__ law) then mret self
  else Raise (ValueError not_valid_msg).

End EC2_2023.

(** ** Reference collaborators

    Concrete collaborators on which the model can be run: a design-value
    rule that divides by the partial factor, and law constructors that tag
    every law with a fixed [__materials__] marker. *)

Module Reference.

Definition quotient_rule (x gamma : float) : result float :=
  PyFloat.truediv x gamma.

Definition law_class_name (k : LawKind) : string :=
  match k with
  | Elastic => "Elastic"
  | ElasticPerfectlyPlastic | ElasticPlastic => "ElasticPlastic"
  end.

Definition tagged_laws (tags : list string) (k : LawKind)
    (kwargs : gmap string float) : result ConstitutiveLaw :=
  OK {| law_name := law_class_name k; __materials__ := tags;
        law_kwargs := kwargs |}.

Definition tagged (tags : list string) : Collaborators :=
  {| ec2_2023_fyd := quotient_rule; ec2_2023_eps_ud := quotient_rule;
     law_of_kind := tagged_laws tags |}.

Definition steel : Collaborators := tagged ["steel"; "rebars"].
Definition concrete : Collaborators := tagged ["concrete"].

Definition concrete_law : ConstitutiveLaw :=
  {| law_name := "ParabolaRectangle"; __materials__ := ["concrete"];
     law_kwargs := ∅ |}.

Definition steel_law : ConstitutiveLaw :=
  {| law_name := "UserDefined"; __materials__ := ["steel"; "rebars"];
     law_kwargs := ∅ |}.

(** A B500 bar: [fyk = 500], [Es = 200000], [ftk = 575],
    [epsuk = 0.075], everything else left at its default. *)
Definition b500 : init_args := default_args 500 200000 575 0.075.

(** The same bar with a partial factor, a name and a law of the caller's
    choice. *)
Definition b500_with (gamma : option float) (law : law_arg) : init_args :=
  {| a_fyk := 500; a_Es := 200000; a_ftk := 575; a_epsuk := 0.075;
     a_gamma_s := gamma; a_name := Some "B500B"; a_density := 7850;
     a_constitutive_law := law |}.

(** A bar whose ultimate strain is as small as its yield strain:
    [0.0025 / 1.15] and [500 / 1.15 / 200000] are the same float. *)
Definition brittle : init_args :=
  {| a_fyk := 500; a_Es := 200000; a_ftk := 575; a_epsuk := 0.0025;
     a_gamma_s := None; a_name := None; a_density := 7850;
     a_constitutive_law := LawName "elastic" |}.

(** A bar without hardening: the ultimate strength is the yield
    strength. *)
Definition flat : init_args :=
  {| a_fyk := 500; a_Es := 200000; a_ftk := 500; a_epsuk := 0.075;
     a_gamma_s := None; a_name := Some "B500A"; a_density := 7850;
     a_constitutive_law := LawName "elasticplastic" |}.

(** A bar of infinite strength that is given no name, with a law of the
    caller's choice. *)
Definition unnamed_infinite (law : law_arg) : init_args :=
  {| a_fyk := infinity; a_Es := 200000; a_ftk := infinity;
     a_epsuk := 0.075; a_gamma_s := None; a_name := None;
     a_density := 7850; a_constitutive_law := law |}.

(** A bar of unbounded strength and ductility. *)
Definition unbounded : init_args :=
  {| a_fyk := infinity; a_Es := 200000; a_ftk := infinity;
     a_epsuk := infinity; a_gamma_s := None; a_name := Some "ideal";
     a_density := 7850; a_constitutive_law := LawName "elastic" |}.

End Reference.

(** * Properties *)

(** ** Floating-point subtraction

    Python compares and subtracts binary64 numbers; the division in
    [__elasticplastic__] raises exactly when the difference of the two
    strains is a zero.  The lemmas below relate that to the comparison of
    the two strains, on the IEEE specification of the operations. *)

Section Binary.

(** The lemmas hold for every format with a positive precision [prec];
    [emax] fixes the exponent range. *)
Variable prec emax : Z.
Hypothesis prec_pos : 0 < prec.

Lemma digits2_pos_lower (m : positive) :
  2 ^ (Zpos (digits2_pos m) - 1) <= Zpos m.
Proof.
  induction m as [m IH | m IH |]; simpl digits2_pos; [| | simpl; lia];
    rewrite Pos2Z.inj_succ;
    replace (Z.succ (Zpos (digits2_pos m)) - 1)
      with (Z.succ (Zpos (digits2_pos m) - 1)) by lia;
    rewrite Z.pow_succ_r by lia; lia.
Qed.

Lemma digits2_pos_shift (m d : positive) :
  digits2_pos (Pos.iter xO m d) = (digits2_pos m + d)%positive.
Proof.
  induction d as [| d IH] using Pos.peano_ind.
  - simpl. lia.
  - rewrite Pos.iter_succ. simpl. rewrite IH. lia.
Qed.

(** Aligning a mantissa to a smaller exponent keeps [digits + exponent]. *)
Lemma shl_align_digits (m : positive) (e e' : Z) :
  e' <= e ->
  Zpos (digits2_pos (fst (shl_align m e e'))) + e'
  = Zpos (digits2_pos m) + e.
Proof.
  intros Hle. unfold shl_align.
  destruct (e' - e) as [| p | p] eqn:E; cbn [fst]; try lia.
  rewrite digits2_pos_shift. lia.
Qed.

Lemma shr_1_m (r : shr_record) :
  0 <= shr_m r -> shr_m (shr_1 r) = shr_m r / 2.
Proof.
  destruct r as [m rb sb]. unfold shr_1. cbn [shr_m].
  destruct m as [| [p | p |] | p]; cbn [shr_m]; intros Hm; try lia;
    try reflexivity.
  - apply Z.div_unique with (r := 1); lia.
  - apply Z.div_unique with (r := 0); lia.
Qed.

Lemma shr_1_m_nonneg (r : shr_record) : 0 <= shr_m r -> 0 <= shr_m (shr_1 r).
Proof. intros Hr. rewrite shr_1_m by exact Hr. apply Z.div_pos; lia. Qed.

(** [p] one-bit shifts divide the mantissa by [2 ^ p]. *)
Lemma iter_shr_1_m (p : positive) (r : shr_record) :
  0 <= shr_m r ->
  shr_m (SpecFloat.iter_pos shr_1 p r) = shr_m r / 2 ^ Zpos p.
Proof.
  revert r.
  induction p as [p IH | p IH |]; intros r Hr; simpl SpecFloat.iter_pos.
  - pose proof (shr_1_m_nonneg r Hr) as H1.
    assert (H2 : 0 <= shr_m (SpecFloat.iter_pos shr_1 p (shr_1 r)))
      by (rewrite IH by lia; apply Z.div_pos; lia).
    rewrite IH, IH, shr_1_m by lia.
    rewrite !Z.div_div by lia.
    f_equal. replace (Zpos p~1) with (1 + Zpos p + Zpos p) by lia.
    rewrite !Z.pow_add_r by lia. change (2 ^ 1) with 2. ring.
  - assert (H2 : 0 <= shr_m (SpecFloat.iter_pos shr_1 p r))
      by (rewrite IH by lia; apply Z.div_pos; lia).
    rewrite IH, IH by lia.
    rewrite !Z.div_div by lia.
    f_equal. replace (Zpos p~0) with (Zpos p + Zpos p) by lia.
    rewrite !Z.pow_add_r by lia. ring.
  - rewrite shr_1_m by lia. reflexivity.
Qed.

(** Shifting a positive mantissa into the format keeps it positive, as
    long as the exponent is not below [emin]. *)
Lemma shr_fexp_pos (z e : Z) (l : location) :
  0 < z -> SpecFloat.emin prec emax <= e ->
  0 < shr_m (fst (shr_fexp prec emax z e l)) /\
  SpecFloat.emin prec emax <= snd (shr_fexp prec emax z e l).
Proof.
  intros Hz He. unfold shr_fexp, shr.
  assert (Hm : shr_m (shr_record_of_loc z l) = z)
    by (destruct l as [| []]; reflexivity).
  destruct (SpecFloat.fexp prec emax (Zdigits2 z + e) - e)
    as [| p | p] eqn:E; cbn [fst snd]; rewrite ?Hm; try (split; lia).
  rewrite iter_shr_1_m by lia. rewrite Hm.
  destruct z as [| m | m]; try lia. simpl Zdigits2 in E.
  unfold SpecFloat.fexp in E.
  assert (Hp : Zpos p = Zpos (digits2_pos m) - prec) by lia.
  split; [| lia].
  pose proof (digits2_pos_lower m) as Hlow.
  assert (2 ^ Zpos p <= 2 ^ (Zpos (digits2_pos m) - 1))
    by (apply Z.pow_le_mono_r; lia).
  apply Z.div_str_pos. lia.
Qed.

Lemma round_nearest_even_pos (z : Z) (l : location) :
  0 < z -> 0 < round_nearest_even z l.
Proof.
  intros Hz. destruct l as [| []]; cbn [round_nearest_even]; try lia.
  destruct (Z.even z); lia.
Qed.

Lemma binary_round_aux_nonzero (s : bool) (z e : Z) (l : location) :
  0 < z -> SpecFloat.emin prec emax <= e ->
  SFis_zero (binary_round_aux prec emax s z e l) = false.
Proof.
  intros Hz He. unfold binary_round_aux.
  destruct (shr_fexp_pos z e l Hz He) as [H1 H1e].
  destruct (shr_fexp prec emax z e l) as [mrs' e'].
  cbn [fst snd] in H1, H1e.
  pose proof (round_nearest_even_pos _ (loc_of_shr_record mrs') H1) as H2.
  destruct (shr_fexp_pos _ e' loc_Exact H2 H1e) as [H3 _].
  destruct (shr_fexp prec emax _ e' loc_Exact) as [mrs'' e''].
  cbn [fst] in H3.
  destruct (shr_m mrs'') as [| m | m]; try lia.
  destruct (e'' <=? emax - prec); reflexivity.
Qed.

Lemma binary_round_nonzero (s : bool) (m : positive) (e : Z) :
  SpecFloat.emin prec emax <= e ->
  SFis_zero (binary_round prec emax s m e) = false.
Proof.
  intros He. unfold binary_round.
  destruct (shl_align m e (SpecFloat.fexp prec emax (Zpos (digits2_pos m) + e)))
    as [mz ez] eqn:E.
  apply binary_round_aux_nonzero; [lia |].
  unfold shl_align in E.
  destruct (SpecFloat.fexp prec emax (Zpos (digits2_pos m) + e) - e) eqn:E';
    inversion E; subst; try lia.
  unfold SpecFloat.fexp. lia.
Qed.

(** A non-zero integer times [2 ^ e] is not rounded to zero. *)
Lemma binary_normalize_nonzero (d e : Z) (sz : bool) :
  d <> 0 -> SpecFloat.emin prec emax <= e ->
  SFis_zero (binary_normalize prec emax d e sz) = false.
Proof.
  intros Hd He.
  destruct d; cbn [binary_normalize]; try lia; now apply binary_round_nonzero.
Qed.

(** The exponent of a valid finite float is canonical, and not below
    [emin]. *)
Lemma valid_finite_emin (s : bool) (m : positive) (e : Z) :
  SpecFloat.valid_binary prec emax (S754_finite s m e) = true ->
  SpecFloat.fexp prec emax (Zpos (digits2_pos m) + e) = e /\
  SpecFloat.emin prec emax <= e.
Proof.
  cbn [SpecFloat.valid_binary]. unfold bounded, canonical_mantissa.
  intros [Hc%Z.eqb_eq _]%andb_prop.
  split; [exact Hc |]. unfold SpecFloat.fexp in Hc. lia.
Qed.

Lemma SFeqb_zero (x : spec_float) :
  SFeqb x (S754_zero false) = SFis_zero x.
Proof. destruct x as [| [] | | [] ? ?]; reflexivity. Qed.

Lemma SFeqb_finite (sx sy : bool) (mx my : positive) (ex ey : Z) :
  SFeqb (S754_finite sx mx ex) (S754_finite sy my ey) = true <->
  sx = sy /\ mx = my /\ ex = ey.
Proof.
  unfold SFeqb, SFcompare. split.
  - destruct sx, sy; try discriminate;
      destruct (ex ?= ey) eqn:E; try discriminate;
      apply Z.compare_eq in E; subst;
      destruct (Pos.compare_cont Eq mx my) eqn:E'; try discriminate;
      apply Pos.compare_eq in E'; subst; auto.
  - intros (-> & -> & ->). rewrite Z.compare_refl.
    change (Pos.compare_cont Eq my my) with (my ?= my)%positive.
    rewrite Pos.compare_refl. destruct sy; reflexivity.
Qed.

(** Floats that compare equal and are not infinite have a zero
    difference. *)
Lemma SFsub_eq_zero (x y : spec_float) :
  SFeqb x y = true ->
  (forall s, x <> S754_infinity s) ->
  SFis_zero (SFsub prec emax x y) = true.
Proof.
  intros Heq Hfin.
  destruct x as [sx | sx | | sx mx ex], y as [sy | sy | | sy my ey];
    try (exfalso; eapply Hfin; reflexivity);
    try (apply SFeqb_finite in Heq as (-> & -> & ->));
    try (now cbv in Heq);
    try (now destruct sx; cbv in Heq);
    try (now destruct sy; cbv in Heq).
  - destruct sx, sy; reflexivity.
  - unfold SFsub. cbv zeta. rewrite Z.sub_diag. reflexivity.
Qed.

(** Floats that do not compare equal have a non-zero difference: with
    subnormal numbers a subtraction does not underflow to zero. *)
Lemma SFsub_neq_nonzero (x y : spec_float) :
  SpecFloat.valid_binary prec emax x = true ->
  SpecFloat.valid_binary prec emax y = true ->
  SFeqb x y = false ->
  SFis_zero (SFsub prec emax x y) = false.
Proof.
  intros Vx Vy Hne.
  destruct x as [sx | sx | | sx mx ex], y as [sy | sy | | sy my ey];
    try reflexivity;
    try (now destruct sx, sy; cbv in Hne).
  destruct (valid_finite_emin _ _ _ Vx) as [Cx Ex].
  destruct (valid_finite_emin _ _ _ Vy) as [Cy Ey].
  unfold SFsub. cbv zeta. apply binary_normalize_nonzero; [| lia].
  intros Hd.
  pose proof (shl_align_digits mx ex (Z.min ex ey) ltac:(lia)) as Dx.
  pose proof (shl_align_digits my ey (Z.min ex ey) ltac:(lia)) as Dy.
  assert (Hsame : sx = sy /\
                  fst (shl_align mx ex (Z.min ex ey))
                  = fst (shl_align my ey (Z.min ex ey))).
  { destruct sx, sy; unfold cond_Zopp in Hd; split; try reflexivity; lia. }
  destruct Hsame as [-> Hm]. rewrite Hm in Dx.
  assert (ex = ey) by congruence. subst ey.
  rewrite Z.min_id in Hm. unfold shl_align in Hm.
  rewrite Z.sub_diag in Hm. cbn [fst] in Hm. subst my.
  assert (SFeqb (S754_finite sy mx ex) (S754_finite sy mx ex) = true)
    by now apply SFeqb_finite.
  congruence.
Qed.

End Binary.

Lemma eqb_zero_spec (x : float) : (x =? 0)%float = SFis_zero (Prim2SF x).
Proof.
  rewrite FloatAxioms.eqb_spec.
  change (Prim2SF 0%float) with (S754_zero false). apply SFeqb_zero.
Qed.

Lemma sub_eqb_zero_of_eqb (x y : float) :
  (x =? y)%float = true -> PyFloat.finite x = true ->
  (x - y =? 0)%float = true.
Proof.
  intros Heq Hfin. rewrite eqb_zero_spec, FloatAxioms.sub_spec.
  rewrite FloatAxioms.eqb_spec in Heq.
  apply SFsub_eq_zero; [exact Heq |].
  intros s Hs. unfold PyFloat.finite in Hfin. rewrite Hs in Hfin.
  discriminate Hfin.
Qed.

Lemma sub_eqb_zero_of_neqb (x y : float) :
  (x =? y)%float = false -> (x - y =? 0)%float = false.
Proof.
  intros Hne. rewrite eqb_zero_spec, FloatAxioms.sub_spec.
  rewrite FloatAxioms.eqb_spec in Hne.
  apply SFsub_neq_nonzero; auto using Prim2SF_valid. reflexivity.
Qed.

(** ** The error monad *)

Lemma bind_OK {A B} (f : A -> result B) (a : A) : mbind f (OK a) = f a.
Proof. reflexivity. Qed.

Lemma OK_inj {A} (a b : A) : OK a = OK b -> a = b.
Proof. now intros [= ->]. Qed.

(** ** Truthiness of floats *)

Lemma truthy_spec (g : float) :
  PyFloat.truthy g = negb (SFis_zero (Prim2SF g)).
Proof. unfold PyFloat.truthy. now rewrite eqb_zero_spec. Qed.

(** The falsy floats are the two zeros. *)
Lemma falsy_iff_zero (g : float) :
  PyFloat.truthy g = false <-> g = 0%float \/ g = (-0)%float.
Proof.
  rewrite truthy_spec. split.
  - intros Hz. destruct (Prim2SF g) as [[] | | |] eqn:E; try discriminate Hz.
    + right. now apply Prim2SF_inj.
    + left. now apply Prim2SF_inj.
  - now intros [-> | ->].
Qed.

(** ** The constructor *)

Section Properties.

Context `{Collaborators}.

Lemma init_inv (a : init_args) (m : ReinforcementEC2_2023) :
  init a = OK m ->
  exists nm law,
    init_name a = OK nm /\
    init_law a (init_base a nm) = OK law /\
    "steel" ∈ __materials__ law /\
    m = set_constitutive_law (init_base a nm) law.
Proof.
  unfold init. destruct (init_name a) as [e | nm]; [discriminate |].
  rewrite (bind_OK _ nm). cbv zeta.
  destruct (init_law a (init_base a nm)) as [e | law] eqn:Hlaw;
    [discriminate |].
  rewrite (bind_OK _ law). case_bool_decide; [| discriminate].
  intros <-%OK_inj. exists nm, law. auto.
Qed.

(** A constructed object holds the arguments it was built from. *)
Lemma init_stores (a : init_args) (m : ReinforcementEC2_2023) :
  init a = OK m ->
  _fyk m = a_fyk a /\ _Es m = a_Es a /\ _ftk m = a_ftk a /\
  _epsuk m = a_epsuk a /\ _gamma_s m = a_gamma_s a /\
  _density m = a_density a /\ init_name a = OK (_name m).
Proof.
  intros (nm & law & Hnm & _ & _ & ->)%init_inv. now rewrite Hnm.
Qed.

(** The constructor succeeds exactly when the name can be made, the law
    can be resolved and the law is marked for steel. *)
Lemma init_OK (a : init_args) (nm : string) (law : ConstitutiveLaw) :
  init_name a = OK nm ->
  init_law a (init_base a nm) = OK law ->
  "steel" ∈ __materials__ law ->
  init a = OK (set_constitutive_law (init_base a nm) law).
Proof.
  intros Hnm Hlaw Hsteel. unfold init.
  rewrite Hnm, bind_OK. cbv zeta. rewrite Hlaw, bind_OK.
  now rewrite bool_decide_eq_true_2.
Qed.

(** A law instance marked for steel is adopted as it is. *)
Lemma init_adopts_instance
    (a : init_args) (nm : string) (law : ConstitutiveLaw) :
  init_name a = OK nm ->
  a_constitutive_law a = LawInstance law ->
  "steel" ∈ __materials__ law ->
  init a = OK (set_constitutive_law (init_base a nm) law).
Proof.
  intros Hnm Harg Hsteel. apply init_OK; [exact Hnm | | exact Hsteel].
  unfold init_law. now rewrite Harg.
Qed.

Lemma kind_of_name_None (s : string) :
  kind_of_name s = None <->
  s <> "elastic" /\ s <> "elasticperfectlyplastic" /\ s <> "elasticplastic".
Proof.
  unfold kind_of_name.
  destruct (String.eqb_spec s "elastic");
    destruct (String.eqb_spec s "elasticperfectlyplastic");
    destruct (String.eqb_spec s "elasticplastic");
    split; try discriminate; try tauto; intros (? & ? & ?); congruence.
Qed.

(** C1: every call of [fyd] on a material returns the code rule
    [ec2_2023.fyd] applied to the stored characteristic yield strength and
    to the partial factor the accessor resolves; nothing is cached and
    nothing else is done to the value. *)
Theorem fyd_delegates (self : ReinforcementEC2_2023) :
  fyd self = ec2_2023_fyd (_fyk self) (gamma_s self).
Proof. reflexivity. Qed.

(** C2: [ftd] applies the very rule [fyd] uses, [ec2_2023.fyd], to the
    stored characteristic ultimate strength and the resolved partial
    factor. *)
Theorem ftd_uses_fyd_rule (self : ReinforcementEC2_2023) :
  ftd self = ec2_2023_fyd (_ftk self) (gamma_s self).
Proof. reflexivity. Qed.

(** C3, amended: for a constructed material the accessor returns 1.15
    when no override was given, and returns the override unchanged when
    one was given that is not a zero. *)
Theorem gamma_s_override (a : init_args) (m : ReinforcementEC2_2023) :
  init a = OK m ->
  match a_gamma_s a with
  | None => gamma_s m = 1.15%float
  | Some g => PyFloat.truthy g = true -> gamma_s m = g
  end.
Proof.
  intros (_ & _ & _ & _ & Hg & _)%init_stores. unfold gamma_s. rewrite Hg.
  destruct (a_gamma_s a) as [g |]; [| reflexivity].
  now intros ->.
Qed.

(** C10: for a material constructed with a falsy override, such as 0.0,
    the accessor ignores the override and returns the default 1.15. *)
Theorem gamma_s_falsy_override
    (a : init_args) (m : ReinforcementEC2_2023) (g : float) :
  init a = OK m ->
  a_gamma_s a = Some g ->
  PyFloat.truthy g = false ->
  gamma_s m = 1.15%float.
Proof.
  intros (_ & _ & _ & _ & Hg & _)%init_stores Ha Hfalsy.
  unfold gamma_s. now rewrite Hg, Ha, Hfalsy.
Qed.

(** C9, amended: the accessor of a constructed material always returns a
    number, never an unset value; that number is positive and finite
    exactly when no override was given, or the override is a zero, or the
    override itself is positive and finite. *)
Theorem gamma_s_positive_finite (a : init_args) (m : ReinforcementEC2_2023) :
  init a = OK m ->
  PyFloat.positive_finite (gamma_s m) =
  match a_gamma_s a with
  | None => true
  | Some g => negb (PyFloat.truthy g) || PyFloat.positive_finite g
  end.
Proof.
  intros (_ & _ & _ & _ & Hg & _)%init_stores. unfold gamma_s. rewrite Hg.
  destruct (a_gamma_s a) as [g |]; [| reflexivity].
  destruct (PyFloat.truthy g); reflexivity.
Qed.

(** C4, amended: when the name step of the constructor returns (a name
    was passed, or [round(fyk)] returns) and the constitutive law the
    constructor resolves, be it the instance passed in or the one the
    factory built from a known name, does not list "steel" in its
    [__materials__], the constructor raises the [ValueError] of line 79
    and returns no object. *)
Theorem init_rejects_law_without_steel
    (a : init_args) (nm : string) (law : ConstitutiveLaw) :
  init_name a = OK nm ->
  init_law a (init_base a nm) = OK law ->
  "steel" ∉ __materials__ law ->
  init a =
  Raise (ValueError "The provided constitutive law is not valid for reinforcement.").
Proof.
  intros Hnm Hlaw Hsteel. unfold init.
  rewrite Hnm, bind_OK. cbv zeta. rewrite Hlaw, bind_OK.
  now rewrite bool_decide_eq_false_2.
Qed.

(** C5, amended: when the name step of the constructor returns (a name
    was passed, or [round(fyk)] returns) and the constitutive law is
    given as a string that is none of 'elastic',
    'elasticperfectlyplastic' and 'elasticplastic', the factory raises a
    [ValueError], and that very exception leaves the constructor: no
    object is returned. *)
Theorem init_unknown_law_name (a : init_args) (s nm : string) :
  a_constitutive_law a = LawName s ->
  s <> "elastic" -> s <> "elasticperfectlyplastic" -> s <> "elasticplastic" ->
  init_name a = OK nm ->
  exists msg,
    create_constitutive_law s (init_base a nm) = Raise (ValueError msg) /\
    init a = Raise (ValueError msg).
Proof.
  intros Hlaw H1 H2 H3 Hnm.
  assert (Hk : kind_of_name s = None) by now apply kind_of_name_None.
  exists ("Unknown constitutive law: " +:+ s).
  assert (Hf : create_constitutive_law s (init_base a nm) =
               Raise (ValueError ("Unknown constitutive law: " +:+ s)))
    by (unfold create_constitutive_law; now rewrite Hk).
  split; [exact Hf |].
  unfold init, init_law. rewrite Hnm, bind_OK. cbv zeta.
  now rewrite Hlaw, Hf.
Qed.

End Properties.

(** ** The generated name *)

(** [round_half_even] is within one half of the number it rounds. *)
Lemma round_half_even_nearest (m p : positive) :
  2 * Z.abs (PyFloat.round_half_even false m (Zneg p) * 2 ^ Zpos p - Zpos m)
  <= 2 ^ Zpos p.
Proof.
  unfold PyFloat.round_half_even. cbv zeta.
  assert (Hd : 0 < 2 ^ Zpos p) by (apply Z.pow_pos_nonneg; lia).
  pose proof (Z.div_mod (Zpos m) (2 ^ Zpos p) ltac:(lia)) as Hdm.
  pose proof (Z.mod_pos_bound (Zpos m) (2 ^ Zpos p) Hd) as Hr.
  generalize dependent (Zpos m mod 2 ^ Zpos p).
  generalize dependent (Zpos m / 2 ^ Zpos p).
  generalize dependent (2 ^ Zpos p).
  intros d Hd q r Hdm Hr.
  destruct (Z.compare_spec (2 * r) d); try destruct (Z.even q); nia.
Qed.

(** On a tie [round_half_even] picks the even neighbour. *)
Lemma round_half_even_tie (m p : positive) :
  2 * (Zpos m mod 2 ^ Zpos p) = 2 ^ Zpos p ->
  Z.even (PyFloat.round_half_even false m (Zneg p)) = true.
Proof.
  intros Htie. unfold PyFloat.round_half_even. cbv zeta.
  rewrite Htie, Z.compare_refl.
  destruct (Z.even (Zpos m / 2 ^ Zpos p)) eqn:E; [exact E |].
  rewrite Z.even_add, E. reflexivity.
Qed.

Example round_ties_to_even :
  PyFloat.round 500.4 = OK 500 /\ PyFloat.round 500.5 = OK 500 /\
  PyFloat.round 501.5 = OK 502 /\ PyFloat.round (-0.4) = OK 0 /\
  PyFloat.round (-501.5) = OK (-502).
Proof. now vm_compute. Qed.

Lemma pretty_N_char_digit (x : N) : is_digit (pretty_N_char x) = true.
Proof.
  destruct x as [| p]; [reflexivity |].
  do 4 (destruct p as [p | p |]; try reflexivity).
Qed.

Lemma pretty_N_go_digits (x : N) (s : string) :
  all_digits s = true -> all_digits (pretty_N_go x s) = true.
Proof.
  revert s. induction (N.lt_wf_0 x) as [x _ IH]. intros s Hs.
  destruct (decide (x = 0)%N) as [-> | Hx]; [exact Hs |].
  rewrite pretty_N_go_step by lia.
  apply IH; [apply N.div_lt; lia |].
  cbn [all_digits]. now rewrite pretty_N_char_digit, Hs.
Qed.

(** A non-negative integer is rendered with decimal digits only. *)
Lemma format_d_digits (n : Z) : 0 <= n -> all_digits (format_d n) = true.
Proof.
  intros Hn. destruct n as [| p | p]; [reflexivity | | lia].
  unfold format_d, pretty, pretty_Z, pretty, pretty_positive, pretty, pretty_N.
  destruct (decide (N.pos p = 0%N)); [reflexivity |].
  now apply pretty_N_go_digits.
Qed.

Section Methods.

Context `{Collaborators}.

(** C6: when the constructor is called without a name and returns an
    object, the stored name is "Reinforcement" followed by the decimal
    digits of [round(fyk)], with no separator and no decimal point; with
    [fyk = 500.4] the name is "Reinforcement500". *)
Theorem init_default_name (a : init_args) (m : ReinforcementEC2_2023) :
  a_name a = None ->
  init a = OK m ->
  exists n,
    PyFloat.round (a_fyk a) = OK n /\
    name m = "Reinforcement" +:+ format_d n /\
    (0 <= n -> all_digits (format_d n) = true) /\
    (a_fyk a = 500.4%float -> name m = "Reinforcement500").
Proof.
  intros Hnone (_ & _ & _ & _ & _ & _ & Hnm)%init_stores.
  unfold init_name in Hnm. rewrite Hnone in Hnm.
  destruct (PyFloat.round (a_fyk a)) as [e | n] eqn:Hround;
    [discriminate Hnm |].
  rewrite bind_OK in Hnm. apply OK_inj in Hnm.
  exists n. unfold name. rewrite <- Hnm.
  split; [reflexivity |]. split; [reflexivity |].
  split; [apply format_d_digits |].
  intros Hfyk. rewrite Hfyk in Hround.
  vm_compute in Hround. apply OK_inj in Hround. now subst n.
Qed.

(** C7: when the design ultimate strain differs from the design yield
    strain, [__elasticplastic__] returns a dictionary with exactly the
    keys 'E', 'fy', 'Eh' and 'eps_su', holding [Es], [fyd()], the
    hardening modulus [(ftd() - fyd()) / (epsud() - epsyd)] and
    [epsud()]; [epsyd] is [fyd() / Es]. *)
Theorem elasticplastic_kwargs
    (self : ReinforcementEC2_2023) (fy ft eu ey : float) :
  fyd self = OK fy ->
  ftd self = OK ft ->
  epsud self = OK eu ->
  epsyd self = OK ey ->
  (eu =? ey)%float = false ->
  exists kwargs : gmap string float,
    __elasticplastic__ self = OK kwargs /\
    kwargs !! "E" = Some (Es self) /\
    kwargs !! "fy" = Some fy /\
    kwargs !! "Eh" = Some ((ft - fy) / (eu - ey))%float /\
    kwargs !! "eps_su" = Some eu /\
    dom kwargs = {[ "E"; "fy"; "Eh"; "eps_su" ]} /\
    PyFloat.truediv fy (Es self) = OK ey.
Proof.
  intros Hfy Hft Heu Hey Hne.
  eexists. split.
  - unfold __elasticplastic__, PyFloat.truediv.
    rewrite Hft, Hfy, Heu, Hey. run_result.
    rewrite (sub_eqb_zero_of_neqb eu ey Hne). reflexivity.
  - repeat split; try (now simplify_map_eq).
    unfold epsyd in Hey. now rewrite Hfy, bind_OK in Hey.
Qed.

(** C8, amended: when the design ultimate strain equals the design yield
    strain and that strain is finite, [__elasticplastic__] raises: the
    exception of [ftd()] if that call raises, and otherwise the
    [ZeroDivisionError] of the float division; no dictionary is
    returned. *)
Theorem elasticplastic_degenerate_raises
    (self : ReinforcementEC2_2023) (eu ey : float) :
  epsud self = OK eu ->
  epsyd self = OK ey ->
  (eu =? ey)%float = true ->
  PyFloat.finite eu = true ->
  __elasticplastic__ self =
  match ftd self with
  | inl e => Raise e
  | inr _ => Raise ZeroDivisionError
  end.
Proof.
  intros Heu Hey Heq Hfin. unfold __elasticplastic__.
  destruct (ftd self) as [e | ft]; [reflexivity |].
  rewrite (bind_OK _ ft).
  assert (Hfy : exists fy, fyd self = OK fy).
  { unfold epsyd in Hey. destruct (fyd self) as [e | fy]; [discriminate Hey |].
    now exists fy. }
  destruct Hfy as [fy Hfy].
  unfold PyFloat.truediv. rewrite Hfy, Heu, Hey. run_result.
  now rewrite (sub_eqb_zero_of_eqb eu ey Heq Hfin).
Qed.

End Methods.

(** ** The model at work on the reference collaborators *)

Example b500_design_values :
  exists m,
    init (H := Reference.steel) Reference.b500 = OK m /\
    name m = "Reinforcement500" /\
    gamma_s m = 1.15%float /\
    fyd (H := Reference.steel) m = OK 434.78260869565219%float /\
    ftd (H := Reference.steel) m = OK 500.00000000000006%float /\
    epsud (H := Reference.steel) m = OK 0.065217391304347824%float /\
    epsyd (H := Reference.steel) m = OK 0.0021739130434782609%float.
Proof. eexists. split; [vm_compute; reflexivity |]. now vm_compute. Qed.

Lemma gamma_s_override_witness :
  exists m,
    init (H := Reference.steel)
      (Reference.b500_with (Some 1.0%float) (LawInstance Reference.steel_law))
    = OK m /\
    gamma_s m = 1.0%float.
Proof.
  eexists. split; [vm_compute; reflexivity |].
  apply (gamma_s_override (H := Reference.steel)
           (Reference.b500_with (Some 1.0%float)
              (LawInstance Reference.steel_law)));
    [vm_compute; reflexivity | reflexivity].
Defined.

(** With an override of 0.0 the accessor answers 1.15, not the
    override. *)
Lemma gamma_s_zero_override_not_returned :
  exists m,
    init (H := Reference.steel)
      (Reference.b500_with (Some 0%float) (LawInstance Reference.steel_law))
    = OK m /\
    _gamma_s m = Some 0%float /\
    gamma_s m = 1.15%float /\
    gamma_s m <> 0%float.
Proof.
  eexists. split; [vm_compute; reflexivity |].
  split; [reflexivity |]. split; [reflexivity |].
  intros E. apply (f_equal Prim2SF) in E. vm_compute in E. discriminate E.
Qed.

Lemma gamma_s_falsy_override_witness :
  exists m,
    init (H := Reference.steel)
      (Reference.b500_with (Some 0%float) (LawInstance Reference.steel_law))
    = OK m /\
    PyFloat.truthy 0 = false /\
    gamma_s m = 1.15%float.
Proof.
  eexists. split; [vm_compute; reflexivity |]. split; [reflexivity |].
  apply (gamma_s_falsy_override (H := Reference.steel)
           (Reference.b500_with (Some 0%float)
              (LawInstance Reference.steel_law)) _ 0%float);
    [vm_compute; reflexivity | reflexivity | reflexivity].
Defined.

(** An override of -2.0 is accepted by the constructor and returned by
    the accessor: a value that is not positive. *)
Lemma gamma_s_negative_override :
  exists m,
    init (H := Reference.steel)
      (Reference.b500_with (Some (-2)%float) (LawInstance Reference.steel_law))
    = OK m /\
    gamma_s m = (-2)%float /\
    PyFloat.positive_finite (gamma_s m) = false.
Proof.
  eexists. split; [vm_compute; reflexivity |]. split; reflexivity.
Qed.

Lemma gamma_s_positive_finite_witness :
  exists m,
    init (H := Reference.steel) Reference.b500 = OK m /\
    PyFloat.positive_finite (gamma_s m) = true.
Proof.
  eexists. split; [vm_compute; reflexivity |].
  apply (gamma_s_positive_finite (H := Reference.steel) Reference.b500).
  vm_compute; reflexivity.
Defined.

Lemma steel_not_in_concrete : "steel" ∉ ["concrete"].
Proof. intros Hin%list_elem_of_singleton. discriminate Hin. Qed.

(** Both ways to a law without "steel": an instance marked for concrete
    only, and a factory whose laws are marked for concrete only. *)
Lemma init_rejects_law_without_steel_witness :
  init (H := Reference.steel)
    (Reference.b500_with None (LawInstance Reference.concrete_law))
  = Raise (ValueError "The provided constitutive law is not valid for reinforcement.")
  /\
  init (H := Reference.concrete) Reference.b500
  = Raise (ValueError "The provided constitutive law is not valid for reinforcement.").
Proof.
  split.
  - apply (init_rejects_law_without_steel (H := Reference.steel)
             (Reference.b500_with None (LawInstance Reference.concrete_law))
             "B500B" Reference.concrete_law);
      [reflexivity | reflexivity | exact steel_not_in_concrete].
  - eapply (init_rejects_law_without_steel (H := Reference.concrete)
              Reference.b500 "Reinforcement500");
      [vm_compute; reflexivity | vm_compute; reflexivity
       | exact steel_not_in_concrete].
Defined.

Lemma init_unknown_law_name_witness :
  exists msg,
    create_constitutive_law (H := Reference.steel) "bogus"
      (init_base (Reference.b500_with None (LawName "bogus")) "B500B")
    = Raise (ValueError msg) /\
    init (H := Reference.steel) (Reference.b500_with None (LawName "bogus"))
    = Raise (ValueError msg).
Proof.
  apply (init_unknown_law_name (H := Reference.steel)
           (Reference.b500_with None (LawName "bogus")) "bogus" "B500B");
    [reflexivity | discriminate | discriminate | discriminate | reflexivity].
Defined.

Lemma init_default_name_witness :
  exists m,
    init (H := Reference.steel) (default_args 500.4 200000 575 0.075) = OK m /\
    name m = "Reinforcement500".
Proof.
  eexists. split; [vm_compute; reflexivity |].
  destruct (init_default_name (H := Reference.steel)
              (default_args 500.4 200000 575 0.075) _ eq_refl
              ltac:(vm_compute; reflexivity))
    as (n & _ & _ & _ & Hname).
  apply Hname. reflexivity.
Defined.

(** The B500 bar as the factory sees it during construction: the
    hardening modulus is about 1034.5 MPa. *)
Lemma elasticplastic_kwargs_witness :
  exists kwargs,
    __elasticplastic__ (H := Reference.steel)
      (init_base Reference.b500 "Reinforcement500") = OK kwargs /\
    kwargs !! "E" = Some 200000%float /\
    kwargs !! "fy" = Some 434.78260869565219%float /\
    kwargs !! "Eh" = Some 1034.4827586206904%float /\
    kwargs !! "eps_su" = Some 0.065217391304347824%float.
Proof.
  destruct (elasticplastic_kwargs (H := Reference.steel)
              (init_base Reference.b500 "Reinforcement500")
              434.78260869565219 500.00000000000006
              0.065217391304347824 0.0021739130434782609)
    as (kwargs & Hk & HE & Hfy & HEh & Heps & _);
    [vm_compute; reflexivity | vm_compute; reflexivity
     | vm_compute; reflexivity | vm_compute; reflexivity | reflexivity |].
  exists kwargs. repeat split; assumption.
Defined.

(** The brittle bar: both strains are 0.0021739130434782609 and the
    division raises. *)
Lemma elasticplastic_degenerate_raises_witness :
  epsud (H := Reference.steel) (init_base Reference.brittle "Reinforcement500")
  = OK 0.0021739130434782609%float /\
  epsyd (H := Reference.steel) (init_base Reference.brittle "Reinforcement500")
  = OK 0.0021739130434782609%float /\
  __elasticplastic__ (H := Reference.steel)
    (init_base Reference.brittle "Reinforcement500")
  = Raise ZeroDivisionError.
Proof.
  split; [vm_compute; reflexivity |]. split; [vm_compute; reflexivity |].
  apply (elasticplastic_degenerate_raises (H := Reference.steel)
           (init_base Reference.brittle "Reinforcement500")
           0.0021739130434782609 0.0021739130434782609);
    [vm_compute; reflexivity | vm_compute; reflexivity
     | reflexivity | reflexivity].
Defined.

(** With infinite strains the two strains compare equal, their
    difference is NaN, and the method returns a NaN hardening modulus
    without raising. *)
Lemma elasticplastic_infinite_strains_nan :
  exists m kwargs,
    init (H := Reference.steel) Reference.unbounded = OK m /\
    epsud (H := Reference.steel) m = OK infinity /\
    epsyd (H := Reference.steel) m = OK infinity /\
    (infinity =? infinity)%float = true /\
    __elasticplastic__ (H := Reference.steel) m = OK kwargs /\
    kwargs !! "Eh" = Some nan.
Proof.
  eexists. eexists. split; [vm_compute; reflexivity |].
  split; [vm_compute; reflexivity |]. split; [vm_compute; reflexivity |].
  split; [reflexivity |]. split; [vm_compute; reflexivity |].
  vm_compute. reflexivity.
Qed.

(** * Further properties of the class *)

(** ** More on floating-point subtraction and division *)

Section BinaryOps.

Variable prec emax : Z.
Hypothesis prec_pos : 0 < prec.

(** Rounding a positive mantissa gives a finite number or an infinity of
    the sign asked for. *)
Lemma binary_round_aux_not_nan (s : bool) (z e : Z) (l : location) :
  0 < z -> SpecFloat.emin prec emax <= e ->
  SFis_nan (binary_round_aux prec emax s z e l) = false.
Proof.
  intros Hz He. unfold binary_round_aux.
  destruct (shr_fexp_pos prec emax prec_pos z e l Hz He) as [H1 H1e].
  destruct (shr_fexp prec emax z e l) as [mrs' e'].
  cbn [fst snd] in H1, H1e.
  pose proof (round_nearest_even_pos _ (loc_of_shr_record mrs') H1) as H2.
  destruct (shr_fexp_pos prec emax prec_pos _ e' loc_Exact H2 H1e) as [H3 _].
  destruct (shr_fexp prec emax _ e' loc_Exact) as [mrs'' e''].
  cbn [fst] in H3.
  destruct (shr_m mrs'') as [| m | m]; try lia.
  destruct (e'' <=? emax - prec); reflexivity.
Qed.

Lemma binary_normalize_not_nan (d e : Z) (sz : bool) :
  SpecFloat.emin prec emax <= e ->
  SFis_nan (binary_normalize prec emax d e sz) = false.
Proof.
  intros He.
  destruct d as [| m | m]; cbn [binary_normalize]; [reflexivity | |];
    unfold binary_round;
    destruct (shl_align m e
                (SpecFloat.fexp prec emax (Zpos (digits2_pos m) + e)))
      as [mz ez] eqn:E;
    (apply binary_round_aux_not_nan; [lia |]);
    unfold shl_align in E;
    destruct (SpecFloat.fexp prec emax (Zpos (digits2_pos m) + e) - e) eqn:E';
    inversion E; subst; try lia; unfold SpecFloat.fexp; lia.
Qed.

(** The difference of two finite floats is not NaN. *)
Lemma SFsub_finite_not_nan (x y : spec_float) :
  SpecFloat.valid_binary prec emax x = true ->
  SpecFloat.valid_binary prec emax y = true ->
  SFis_finite x = true -> SFis_finite y = true ->
  SFis_nan (SFsub prec emax x y) = false.
Proof.
  intros Vx Vy Fx Fy.
  destruct x as [sx | sx | | sx mx ex], y as [sy | sy | | sy my ey];
    try discriminate Fx; try discriminate Fy; try reflexivity.
  - destruct sx, sy; reflexivity.
  - destruct (valid_finite_emin prec emax _ _ _ Vx) as [_ Ex].
    destruct (valid_finite_emin prec emax _ _ _ Vy) as [_ Ey].
    unfold SFsub. cbv zeta. apply binary_normalize_not_nan. lia.
Qed.

(** A float that is not NaN compares equal to itself. *)
Lemma SFeqb_refl (x : spec_float) : SFis_nan x = false -> SFeqb x x = true.
Proof.
  destruct x as [s | s | | s m e]; try discriminate; intros _.
  - reflexivity.
  - destruct s; reflexivity.
  - now apply SFeqb_finite.
Qed.

(** Equal infinities have no difference: the subtraction gives NaN. *)
Lemma SFsub_infinity_nan (x y : spec_float) :
  SFeqb x y = true -> SFis_nan x = false -> SFis_finite x = false ->
  SFsub prec emax x y = S754_nan.
Proof.
  intros Heq Hn Hf.
  destruct x as [sx | sx | | sx mx ex]; try discriminate.
  destruct y as [sy | sy | | sy my ey]; destruct sx;
    try (now cbv in Heq); try (now destruct sy; cbv in Heq).
Qed.

(** Zero divided by anything but zero and NaN is zero. *)
Lemma SFdiv_zero_l (x y : spec_float) :
  SFis_zero x = true -> SFis_zero y = false -> SFis_nan y = false ->
  SFis_zero (SFdiv prec emax x y) = true.
Proof.
  destruct x as [sx | | |]; try discriminate; intros _.
  destruct y as [sy | sy | | sy my ey]; try discriminate; reflexivity.
Qed.

End BinaryOps.

Lemma finite_spec (x : float) : PyFloat.finite x = SFis_finite (Prim2SF x).
Proof. unfold PyFloat.finite. now destruct (Prim2SF x). Qed.

Lemma is_nan_spec (x : float) : is_nan x = SFis_nan (Prim2SF x).
Proof.
  unfold is_nan. rewrite FloatAxioms.eqb_spec.
  destruct (Prim2SF x) as [s | s | | s m e]; try reflexivity.
  - now destruct s.
  - now rewrite (proj2 (SFeqb_finite s s m m e e)).
Qed.

Lemma finite_not_nan (x : float) :
  PyFloat.finite x = true -> SFis_nan (Prim2SF x) = false.
Proof. rewrite finite_spec. now destruct (Prim2SF x). Qed.

(** [x - y] is a zero exactly when [x == y] and [x] is finite. *)
Lemma sub_eqb_zero_criterion (x y : float) :
  (x - y =? 0)%float = (x =? y)%float && PyFloat.finite x.
Proof.
  destruct (x =? y)%float eqn:Heq; cbn [andb].
  - destruct (PyFloat.finite x) eqn:Hfin.
    + now apply sub_eqb_zero_of_eqb.
    + rewrite eqb_zero_spec, FloatAxioms.sub_spec.
      rewrite FloatAxioms.eqb_spec in Heq. rewrite finite_spec in Hfin.
      unfold SF64sub. erewrite SFsub_infinity_nan; eauto.
      destruct (Prim2SF x); try reflexivity. discriminate Heq.
  - now apply sub_eqb_zero_of_neqb.
Qed.

(** A finite float minus itself is a zero. *)
Lemma sub_diag_zero (x : float) :
  PyFloat.finite x = true -> (x - x =? 0)%float = true.
Proof.
  intros Hfin. rewrite sub_eqb_zero_criterion, Hfin, andb_true_r.
  rewrite FloatAxioms.eqb_spec. now apply SFeqb_refl, finite_not_nan.
Qed.

(** A zero divided by the difference of two distinct finite floats is a
    zero. *)
Lemma div_zero_by_difference (z x y : float) :
  (z =? 0)%float = true ->
  PyFloat.finite x = true -> PyFloat.finite y = true ->
  (x =? y)%float = false ->
  (z / (x - y) =? 0)%float = true.
Proof.
  intros Hz Hx Hy Hne.
  rewrite eqb_zero_spec, FloatAxioms.div_spec. unfold SF64div.
  apply SFdiv_zero_l.
  - now rewrite <- eqb_zero_spec.
  - rewrite <- eqb_zero_spec. now apply sub_eqb_zero_of_neqb.
  - rewrite FloatAxioms.sub_spec. rewrite finite_spec in Hx, Hy.
    apply SFsub_finite_not_nan; auto using Prim2SF_valid. reflexivity.
Qed.

(** ** The partial factor *)

(** The accessor never answers a zero: a zero override is replaced, and
    1.15 is not a zero. *)
Lemma gamma_s_truthy (self : ReinforcementEC2_2023) :
  PyFloat.truthy (gamma_s self) = true.
Proof.
  unfold gamma_s. destruct (_gamma_s self) as [g |]; [| reflexivity].
  destruct (PyFloat.truthy g) eqn:Hg; [exact Hg | reflexivity].
Qed.

(** X1: the partial factor the accessor returns is never 0.0 or -0.0, so
    dividing by it never raises [ZeroDivisionError]. *)
Theorem gamma_s_never_zero (self : ReinforcementEC2_2023) (x : float) :
  (gamma_s self =? 0)%float = false /\
  PyFloat.truediv x (gamma_s self) = OK (x / gamma_s self)%float.
Proof.
  pose proof (gamma_s_truthy self) as Ht. unfold PyFloat.truthy in Ht.
  apply negb_true_iff in Ht. unfold PyFloat.truediv. now rewrite Ht.
Qed.

(** X2: resolving is idempotent: a material whose override is the factor
    another material resolved answers that same factor. *)
Theorem gamma_s_idempotent (self other : ReinforcementEC2_2023) :
  _gamma_s other = Some (gamma_s self) ->
  gamma_s other = gamma_s self.
Proof.
  intros Ho. unfold gamma_s at 1. now rewrite Ho, gamma_s_truthy.
Qed.

(** ** The constructor, continued *)

Section Constructor.

Context `{Collaborators}.

Lemma init_name_None (a : init_args) :
  a_name a = None ->
  init_name a =
  match PyFloat.round (a_fyk a) with
  | inl e => Raise e
  | inr n => OK ("Reinforcement" +:+ format_d n)
  end.
Proof.
  intros Hnone. unfold init_name. rewrite Hnone.
  now destruct (PyFloat.round (a_fyk a)).
Qed.

(** The name of an object constructed without one. *)
Lemma init_generated_name
    (a : init_args) (m : ReinforcementEC2_2023) (n : Z) :
  a_name a = None -> init a = OK m -> PyFloat.round (a_fyk a) = OK n ->
  name m = "Reinforcement" +:+ format_d n.
Proof.
  intros Hnone (_ & _ & _ & _ & _ & _ & Hnm)%init_stores Hround.
  rewrite (init_name_None a Hnone), Hround in Hnm.
  apply OK_inj in Hnm. unfold name. now rewrite <- Hnm.
Qed.

(** X3: every constructed object has a constitutive law bound, and that
    law lists "steel" in its [__materials__]. *)
Theorem init_law_marked_steel (a : init_args) (m : ReinforcementEC2_2023) :
  init a = OK m ->
  exists law,
    _constitutive_law m = Some law /\ "steel" ∈ __materials__ law.
Proof.
  intros (nm & law & _ & _ & Hsteel & ->)%init_inv.
  exists law. split; [reflexivity | exact Hsteel].
Qed.

(** X4: with a name and a law instance marked for steel the constructor
    cannot fail, whatever the numbers are: it checks none of them, it
    does not call the factory, and it stores that name and that very
    instance. *)
Theorem init_instance_total
    (a : init_args) (s : string) (law : ConstitutiveLaw) :
  a_name a = Some s ->
  a_constitutive_law a = LawInstance law ->
  "steel" ∈ __materials__ law ->
  exists m,
    init a = OK m /\ name m = s /\ _constitutive_law m = Some law.
Proof.
  intros Hname Hlaw Hsteel.
  exists (set_constitutive_law (init_base a s) law).
  split; [| split; reflexivity].
  apply init_adopts_instance; try assumption.
  unfold init_name. now rewrite Hname.
Qed.

(** X5: without a name, a [fyk] that is NaN or infinite makes the
    constructor raise before anything else is looked at: [ValueError] for
    NaN and [OverflowError] for an infinity, the exceptions of [round]. *)
Theorem init_default_name_not_finite (a : init_args) :
  a_name a = None ->
  PyFloat.finite (a_fyk a) = false ->
  init a =
  Raise (if is_nan (a_fyk a)
         then ValueError "cannot convert float NaN to integer"
         else OverflowError "cannot convert float infinity to integer").
Proof.
  intros Hnone Hfin. unfold init.
  rewrite (init_name_None a Hnone). rewrite is_nan_spec.
  unfold PyFloat.finite in Hfin. unfold PyFloat.round.
  destruct (Prim2SF (a_fyk a)); try discriminate Hfin; reflexivity.
Qed.

(** X6: two objects constructed without a name carry the same name
    exactly when their [fyk] round to the same integer. *)
Theorem default_names_equal_iff
    (a1 a2 : init_args) (m1 m2 : ReinforcementEC2_2023) (n1 n2 : Z) :
  a_name a1 = None -> a_name a2 = None ->
  init a1 = OK m1 -> init a2 = OK m2 ->
  PyFloat.round (a_fyk a1) = OK n1 -> PyFloat.round (a_fyk a2) = OK n2 ->
  name m1 = name m2 <-> n1 = n2.
Proof.
  intros Hn1 Hn2 Hm1 Hm2 Hr1 Hr2.
  rewrite (init_generated_name a1 m1 n1 Hn1 Hm1 Hr1).
  rewrite (init_generated_name a2 m2 n2 Hn2 Hm2 Hr2).
  split; [| now intros ->].
  intros Heq%(inj (String.app "Reinforcement")).
  now apply (inj pretty).
Qed.

(** X7: the name is made from [fyk] as passed, sign included: when [fyk]
    rounds to a negative integer the name is "Reinforcement-" followed by
    the decimal digits of its absolute value. *)
Theorem default_name_negative
    (a : init_args) (m : ReinforcementEC2_2023) (n : Z) :
  a_name a = None -> init a = OK m ->
  PyFloat.round (a_fyk a) = OK n -> n < 0 ->
  name m = "Reinforcement-" +:+ format_d (- n) /\
  all_digits (format_d (- n)) = true.
Proof.
  intros Hnone Hm Hround Hneg.
  rewrite (init_generated_name a m n Hnone Hm Hround).
  split; [| apply format_d_digits; lia].
  destruct n as [| p | p]; try lia. reflexivity.
Qed.

End Constructor.

(** ** The keyword-argument methods, continued *)

Section Kwargs.

Context `{Collaborators}.

(** [__elasticplastic__] once its four design values are known. *)
Lemma elasticplastic_eval
    (self : ReinforcementEC2_2023) (fy ft eu ey : float) :
  fyd self = OK fy -> ftd self = OK ft ->
  epsud self = OK eu -> epsyd self = OK ey ->
  __elasticplastic__ self =
  if (eu - ey =? 0)%float then Raise ZeroDivisionError
  else OK (<["E" := Es self]> (<["fy" := fy]>
            (<["Eh" := ((ft - fy) / (eu - ey))%float]>
               {[ "eps_su" := eu ]}))).
Proof.
  intros Hfy Hft Heu Hey. unfold __elasticplastic__, PyFloat.truediv.
  rewrite Hft, Hfy, Heu, Hey. run_result.
  now destruct (eu - ey =? 0)%float.
Qed.

(** What a successful [__elasticplastic__] went through. *)
Lemma elasticplastic_OK_inv
    (self : ReinforcementEC2_2023) (kwargs : gmap string float) :
  __elasticplastic__ self = OK kwargs ->
  exists fy ft eu ey,
    fyd self = OK fy /\ ftd self = OK ft /\
    epsud self = OK eu /\ epsyd self = OK ey /\
    (eu - ey =? 0)%float = false /\
    kwargs = <["E" := Es self]> (<["fy" := fy]>
               (<["Eh" := ((ft - fy) / (eu - ey))%float]>
                  {[ "eps_su" := eu ]})).
Proof.
  intros Hk.
  destruct (ftd self) as [e | ft] eqn:Hft;
    [unfold __elasticplastic__ in Hk; rewrite Hft in Hk; discriminate Hk |].
  destruct (fyd self) as [e | fy] eqn:Hfy;
    [unfold __elasticplastic__ in Hk; rewrite Hft, Hfy in Hk;
     discriminate Hk |].
  destruct (epsud self) as [e | eu] eqn:Heu;
    [unfold __elasticplastic__ in Hk; rewrite Hft, Hfy, Heu in Hk;
     discriminate Hk |].
  destruct (epsyd self) as [e | ey] eqn:Hey;
    [unfold __elasticplastic__ in Hk; rewrite Hft, Hfy, Heu, Hey in Hk;
     discriminate Hk |].
  rewrite (elasticplastic_eval self fy ft eu ey Hfy Hft Heu Hey) in Hk.
  exists fy, ft, eu, ey.
  destruct (eu - ey =? 0)%float; [discriminate Hk |].
  apply OK_inj in Hk. auto 10.
Qed.

(** X9: [__elasticperfectlyplastic__] needs only [fyd()] and [epsud()]:
    when both return, it returns a dictionary with exactly the keys 'E',
    'fy' and 'eps_su', holding [Es], [fyd()] and [epsud()]; the yield
    strain and the ultimate strength play no part. *)
Theorem elasticperfectlyplastic_kwargs
    (self : ReinforcementEC2_2023) (fy eu : float) :
  fyd self = OK fy ->
  epsud self = OK eu ->
  exists kwargs : gmap string float,
    __elasticperfectlyplastic__ self = OK kwargs /\
    kwargs !! "E" = Some (Es self) /\
    kwargs !! "fy" = Some fy /\
    kwargs !! "eps_su" = Some eu /\
    dom kwargs = {[ "E"; "fy"; "eps_su" ]}.
Proof.
  intros Hfy Heu. eexists. split.
  - unfold __elasticperfectlyplastic__. rewrite Hfy, Heu. reflexivity.
  - repeat split; now simplify_map_eq.
Qed.

(** X10: the three dictionaries are nested.  Whenever
    [__elasticplastic__] returns, [__elasticperfectlyplastic__] returns
    the same dictionary without 'Eh', and [__elastic__] returns a part of
    that: the keys they share hold the same values. *)
Theorem kwargs_nested
    (self : ReinforcementEC2_2023) (kwargs : gmap string float) :
  __elasticplastic__ self = OK kwargs ->
  exists elastic perfectlyplastic : gmap string float,
    __elastic__ self = OK elastic /\
    __elasticperfectlyplastic__ self = OK perfectlyplastic /\
    perfectlyplastic = delete "Eh" kwargs /\
    elastic ⊆ perfectlyplastic /\ perfectlyplastic ⊆ kwargs.
Proof.
  intros (fy & ft & eu & ey & Hfy & Hft & Heu & Hey & _ & ->)
    %elasticplastic_OK_inv.
  exists ({[ "E" := Es self ]} : gmap string float),
    (<["E" := Es self]> (<["fy" := fy]> {[ "eps_su" := eu ]})
     : gmap string float).
  split; [reflexivity |]. split.
  { unfold __elasticperfectlyplastic__. rewrite Hfy, Heu. reflexivity. }
  assert (Hdel :
    (<["E" := Es self]> (<["fy" := fy]> {[ "eps_su" := eu ]})
     : gmap string float)
    = delete "Eh" (<["E" := Es self]> (<["fy" := fy]>
        (<["Eh" := ((ft - fy) / (eu - ey))%float]> {[ "eps_su" := eu ]})))).
  { rewrite !delete_insert_ne by discriminate.
    now rewrite delete_insert_id by now apply lookup_singleton_ne. }
  split; [exact Hdel |]. split.
  - apply map_subseteq_spec. intros k v Hk.
    apply lookup_singleton_Some in Hk as [<- <-]. now simplify_map_eq.
  - rewrite Hdel. apply delete_subseteq.
Qed.

(** X11: once the four design values are known, [__elasticplastic__]
    raises [ZeroDivisionError] exactly when the two strains are equal and
    finite; in every other case, equal infinite strains and NaN included,
    it returns the dictionary, with whatever the float division gives for
    'Eh'. *)
Theorem elasticplastic_zero_division_criterion
    (self : ReinforcementEC2_2023) (fy ft eu ey : float) :
  fyd self = OK fy -> ftd self = OK ft ->
  epsud self = OK eu -> epsyd self = OK ey ->
  __elasticplastic__ self =
  if (eu =? ey)%float && PyFloat.finite eu then Raise ZeroDivisionError
  else OK (<["E" := Es self]> (<["fy" := fy]>
            (<["Eh" := ((ft - fy) / (eu - ey))%float]>
               {[ "eps_su" := eu ]}))).
Proof.
  intros Hfy Hft Heu Hey.
  rewrite (elasticplastic_eval self fy ft eu ey Hfy Hft Heu Hey).
  now rewrite sub_eqb_zero_criterion.
Qed.

(** X12: without hardening in the characteristic values there is none in
    the design values: when the stored [ftk] is the stored [fyk], the
    design values are finite and the two strains differ, the 'Eh' of
    [__elasticplastic__] is a zero. *)
Theorem elasticplastic_no_hardening
    (self : ReinforcementEC2_2023) (fy eu ey : float) :
  _ftk self = _fyk self ->
  fyd self = OK fy -> epsud self = OK eu -> epsyd self = OK ey ->
  PyFloat.finite fy = true ->
  PyFloat.finite eu = true -> PyFloat.finite ey = true ->
  (eu =? ey)%float = false ->
  exists (kwargs : gmap string float) (Eh : float),
    __elasticplastic__ self = OK kwargs /\
    kwargs !! "Eh" = Some Eh /\ (Eh =? 0)%float = true.
Proof.
  intros Hk Hfy Heu Hey Ffy Feu Fey Hne.
  assert (Hft : ftd self = OK fy).
  { unfold ftd, ftk. rewrite Hk. exact Hfy. }
  rewrite (elasticplastic_eval self fy fy eu ey Hfy Hft Heu Hey).
  rewrite (sub_eqb_zero_of_neqb eu ey Hne).
  eexists. exists ((fy - fy) / (eu - ey))%float.
  split; [reflexivity |]. split; [now simplify_map_eq |].
  apply div_zero_by_difference; auto using sub_diag_zero.
Qed.

End Kwargs.

(** ** The further properties on the reference collaborators *)

Lemma gamma_s_idempotent_witness :
  gamma_s
    (init_base
       (Reference.b500_with
          (Some (gamma_s (init_base Reference.b500 "Reinforcement500")))
          (LawName "elastic")) "B500B")
  = 1.15%float.
Proof.
  rewrite (gamma_s_idempotent (init_base Reference.b500 "Reinforcement500"));
    reflexivity.
Defined.

Lemma init_law_marked_steel_witness :
  exists m law,
    init (H := Reference.steel) Reference.b500 = OK m /\
    _constitutive_law m = Some law /\ "steel" ∈ __materials__ law.
Proof.
  eexists.
  destruct (init_law_marked_steel (H := Reference.steel) Reference.b500 _
              ltac:(vm_compute; reflexivity)) as (law & Hlaw & Hsteel).
  exists law. split; [vm_compute; reflexivity | split; assumption].
Defined.

(** A pre-built law and a name: even NaN strengths are accepted. *)
Lemma init_instance_total_witness :
  exists m,
    init (H := Reference.steel)
      {| a_fyk := nan; a_Es := 0; a_ftk := (-1); a_epsuk := infinity;
         a_gamma_s := Some nan; a_name := Some "anything";
         a_density := 7850;
         a_constitutive_law := LawInstance Reference.steel_law |}
    = OK m /\
    name m = "anything" /\ _constitutive_law m = Some Reference.steel_law.
Proof.
  apply (init_instance_total (H := Reference.steel));
    [reflexivity | reflexivity | cbn; apply list_elem_of_here].
Defined.

Lemma init_default_name_not_finite_witness :
  init (H := Reference.steel) (default_args nan 200000 575 0.075)
  = Raise (ValueError "cannot convert float NaN to integer") /\
  init (H := Reference.steel) (default_args infinity 200000 575 0.075)
  = Raise (OverflowError "cannot convert float infinity to integer").
Proof.
  split.
  - apply (init_default_name_not_finite (H := Reference.steel)
             (default_args nan 200000 575 0.075)); reflexivity.
  - apply (init_default_name_not_finite (H := Reference.steel)
             (default_args infinity 200000 575 0.075)); reflexivity.
Defined.

(** 500.4 and 499.6 both round to 500: the two bars share a name. *)
Lemma default_names_equal_iff_witness :
  exists m1 m2,
    init (H := Reference.steel) (default_args 500.4 200000 575 0.075) = OK m1 /\
    init (H := Reference.steel) (default_args 499.6 200000 575 0.075) = OK m2 /\
    name m1 = name m2.
Proof.
  eexists. eexists.
  split; [vm_compute; reflexivity |]. split; [vm_compute; reflexivity |].
  apply (default_names_equal_iff (H := Reference.steel)
           (default_args 500.4 200000 575 0.075)
           (default_args 499.6 200000 575 0.075) _ _ 500 500);
    try reflexivity; vm_compute; reflexivity.
Defined.

Lemma default_name_negative_witness :
  exists m,
    init (H := Reference.steel) (default_args (-500.4) 200000 575 0.075)
    = OK m /\
    name m = "Reinforcement-500".
Proof.
  eexists. split; [vm_compute; reflexivity |].
  apply (default_name_negative (H := Reference.steel)
           (default_args (-500.4) 200000 575 0.075) _ (-500));
    [reflexivity | vm_compute; reflexivity | vm_compute; reflexivity | lia].
Defined.

(** The brittle bar, on which [__elasticplastic__] raises, has
    perfectly-plastic parameters. *)
Lemma elasticperfectlyplastic_kwargs_witness :
  exists kwargs,
    __elasticperfectlyplastic__ (H := Reference.steel)
      (init_base Reference.brittle "Reinforcement500") = OK kwargs /\
    kwargs !! "fy" = Some 434.78260869565219%float /\
    kwargs !! "eps_su" = Some 0.0021739130434782609%float.
Proof.
  destruct (elasticperfectlyplastic_kwargs (H := Reference.steel)
              (init_base Reference.brittle "Reinforcement500")
              434.78260869565219 0.0021739130434782609)
    as (kwargs & Hk & _ & Hfy & Heps & _);
    [vm_compute; reflexivity | vm_compute; reflexivity |].
  exists kwargs. auto.
Defined.

Lemma kwargs_nested_witness :
  exists kwargs elastic perfectlyplastic : gmap string float,
    __elasticplastic__ (H := Reference.steel)
      (init_base Reference.b500 "Reinforcement500") = OK kwargs /\
    __elastic__ (init_base Reference.b500 "Reinforcement500") = OK elastic /\
    __elasticperfectlyplastic__ (H := Reference.steel)
      (init_base Reference.b500 "Reinforcement500") = OK perfectlyplastic /\
    elastic ⊆ perfectlyplastic /\ perfectlyplastic ⊆ kwargs.
Proof.
  eexists.
  destruct (kwargs_nested (H := Reference.steel)
              (init_base Reference.b500 "Reinforcement500") _
              ltac:(vm_compute; reflexivity))
    as (elastic & perfectlyplastic & He & Hp & _ & H1 & H2).
  exists elastic, perfectlyplastic.
  split; [vm_compute; reflexivity | auto].
Defined.

(** Equal finite strains raise; equal infinite strains do not. *)
Lemma elasticplastic_zero_division_criterion_witness :
  __elasticplastic__ (H := Reference.steel)
    (init_base Reference.brittle "Reinforcement500")
  = Raise ZeroDivisionError /\
  exists kwargs,
    __elasticplastic__ (H := Reference.steel)
      (init_base Reference.unbounded "ideal") = OK kwargs /\
    kwargs !! "Eh" = Some nan.
Proof.
  split.
  - apply (elasticplastic_zero_division_criterion (H := Reference.steel)
             (init_base Reference.brittle "Reinforcement500")
             434.78260869565219 500.00000000000006
             0.0021739130434782609 0.0021739130434782609);
      vm_compute; reflexivity.
  - eexists. split.
    + apply (elasticplastic_zero_division_criterion (H := Reference.steel)
               (init_base Reference.unbounded "ideal")
               infinity infinity infinity infinity);
        vm_compute; reflexivity.
    + vm_compute. reflexivity.
Defined.

Lemma elasticplastic_no_hardening_witness :
  exists (kwargs : gmap string float) (Eh : float),
    __elasticplastic__ (H := Reference.steel)
      (init_base Reference.flat "B500A") = OK kwargs /\
    kwargs !! "Eh" = Some Eh /\ (Eh =? 0)%float = true.
Proof.
  apply (elasticplastic_no_hardening (H := Reference.steel)
           (init_base Reference.flat "B500A")
           434.78260869565219 0.065217391304347824 0.0021739130434782609);
    try reflexivity; vm_compute; reflexivity.
Defined.

(** ** The exceptions of the constructor *)

Section ConstructorExceptions.

Context `{Collaborators}.

(** X8: the constructor raises nothing of its own but the [ValueError] of
    line 79.  An exception that leaves it is the one [round] raised
    while the name was made, or the one the factory raised, or that
    [ValueError], raised for a resolved law that does not list "steel". *)
Theorem init_raise_inv (a : init_args) (e : exn) :
  init a = Raise e ->
  (a_name a = None /\ PyFloat.round (a_fyk a) = Raise e) \/
  (exists nm s,
     init_name a = OK nm /\ a_constitutive_law a = LawName s /\
     create_constitutive_law s (init_base a nm) = Raise e) \/
  (exists nm law,
     init_name a = OK nm /\ init_law a (init_base a nm) = OK law /\
     ("steel" ∉ __materials__ law) /\
     e = ValueError
           "The provided constitutive law is not valid for reinforcement.").
Proof.
  unfold init. intros He.
  destruct (init_name a) as [e' | nm] eqn:Hnm.
  - left. cbn in He.
    assert (e' = e) as -> by (unfold Raise in He; congruence).
    destruct (a_name a) as [s |] eqn:Hname;
      [unfold init_name in Hnm; rewrite Hname in Hnm; discriminate Hnm |].
    split; [reflexivity |].
    rewrite (init_name_None a Hname) in Hnm.
    destruct (PyFloat.round (a_fyk a)); [| discriminate Hnm].
    unfold Raise in *. congruence.
  - right. rewrite bind_OK in He. cbv zeta in He.
    destruct (init_law a (init_base a nm)) as [e' | law] eqn:Hlaw.
    + left. unfold init_law in Hlaw.
      destruct (a_constitutive_law a) as [s | law]; [| discriminate Hlaw].
      exists nm, s. repeat split. rewrite Hlaw. cbn in He.
      unfold Raise in *. congruence.
    + right. rewrite bind_OK in He.
      case_bool_decide as Hsteel; [discriminate He |].
      exists nm, law. repeat split; try assumption.
      unfold Raise, not_valid_msg in He. congruence.
Qed.

End ConstructorExceptions.

Lemma init_raise_inv_witness :
  exists nm law,
    init_name (Reference.b500_with None (LawInstance Reference.concrete_law))
    = OK nm /\
    init_law (H := Reference.steel)
      (Reference.b500_with None (LawInstance Reference.concrete_law))
      (init_base
         (Reference.b500_with None (LawInstance Reference.concrete_law)) nm)
    = OK law /\
    "steel" ∉ __materials__ law.
Proof.
  destruct (init_raise_inv (H := Reference.steel)
              (Reference.b500_with None (LawInstance Reference.concrete_law))
              (ValueError
                 "The provided constitutive law is not valid for reinforcement.")
              ltac:(vm_compute; reflexivity))
    as [[Hname _] | [(nm & s & _ & Hlaw & _) | (nm & law & Hnm & Hl & Hs & _)]].
  - discriminate Hname.
  - discriminate Hlaw.
  - exists nm, law. auto.
Defined.

(** ** The name step comes first *)

(** The name step returns exactly when a name was passed or [fyk] is
    finite. *)
Lemma init_name_OK_iff (a : init_args) :
  (exists nm, init_name a = OK nm) <->
  a_name a <> None \/ PyFloat.finite (a_fyk a) = true.
Proof.
  unfold init_name, PyFloat.round, PyFloat.finite.
  destruct (a_name a) as [s |].
  - split; [now left | intros _; now exists s].
  - destruct (Prim2SF (a_fyk a)) as [sg | sg | | sg m e]; cbn; split;
      try (intros _; eexists; reflexivity);
      try (intros _; now right);
      try (now intros [nm Hnm]);
      intros [Hn | Hf]; congruence.
Qed.

(** A law instance marked for concrete only, no name and an infinite
    [fyk]: line 61 raises [OverflowError] and the "steel" test of line 78
    is never reached. *)
Lemma init_law_without_steel_round_first :
  ("steel" ∉ __materials__ Reference.concrete_law) /\
  init (H := Reference.steel)
    (Reference.unnamed_infinite (LawInstance Reference.concrete_law))
  = Raise (OverflowError "cannot convert float infinity to integer") /\
  init (H := Reference.steel)
    (Reference.unnamed_infinite (LawInstance Reference.concrete_law))
  <> Raise (ValueError
              "The provided constitutive law is not valid for reinforcement.").
Proof.
  split; [exact steel_not_in_concrete |].
  split; [vm_compute; reflexivity |].
  vm_compute. discriminate.
Qed.

(** The law name 'bogus', no name and an infinite [fyk]: line 61 raises
    [OverflowError], the factory is never called and its [ValueError]
    is not what leaves the constructor. *)
Lemma init_unknown_law_name_round_first :
  kind_of_name "bogus" = None /\
  init (H := Reference.steel) (Reference.unnamed_infinite (LawName "bogus"))
  = Raise (OverflowError "cannot convert float infinity to integer") /\
  init (H := Reference.steel) (Reference.unnamed_infinite (LawName "bogus"))
  <> Raise (ValueError "Unknown constitutive law: bogus").
Proof.
  split; [reflexivity |]. split; [vm_compute; reflexivity |].
  vm_compute. discriminate.
Qed.
